(** * Smart-chair posture server: a shallow embedding of [server/server.js]

    The development follows the source file from top to bottom:
    - [F64]: JavaScript numbers, i.e. IEEE 754 binary64 values, with the
      operations the server performs on them ([+], [-], [*], [<], [>],
      [Math.abs]);
    - [registerChairId] and the chair registry (source lines 18 and 74-79);
    - [evaluatePosture], the pressure classifier (lines 93-124);
    - [analyzePoseNetPosture], the keypoint classifier (lines 133-168);
    - the two ingestion routes [POST /chair] and [POST /posenet]
      (lines 202-296), as functions from a request, the answers of the
      outside world and the server state to a response and a new state. *)

From Stdlib Require Import ZArith List String Bool Lia Permutation.
From Stdlib Require Import Floats.SpecFloat.
Import ListNotations.

Local Open Scope string_scope.

(** ** JavaScript numbers *)

Module F64.

(** A JavaScript number is a binary64 value: 53 bits of precision,
    infinities at exponent 1024. *)
Definition float64 : Type := spec_float.
Definition prec : Z := 53.
Definition emax : Z := 1024.

Definition NaN : float64 := S754_nan.
Definition zero : float64 := S754_zero false.

(** [a + b], [a - b], [a * b] and [a / b] on numbers. *)
Definition add (a b : float64) : float64 := SFadd prec emax a b.
Definition sub (a b : float64) : float64 := SFsub prec emax a b.
Definition mul (a b : float64) : float64 := SFmul prec emax a b.
Definition div (a b : float64) : float64 := SFdiv prec emax a b.

(** [Math.abs]. *)
Definition abs (a : float64) : float64 := SFabs a.

(** [a < b], [a > b], [a <= b], [a >= b] and [a === b] on numbers; each
    is [false] as soon as one side is [NaN]. *)
Definition lt (a b : float64) : bool := SFltb a b.
Definition gt (a b : float64) : bool := SFltb b a.
Definition le (a b : float64) : bool := SFleb a b.
Definition ge (a b : float64) : bool := SFleb b a.
Definition eq (a b : float64) : bool := SFeqb a b.

(** An integer literal. *)
Definition of_Z (n : Z) : float64 := binary_normalize prec emax n 0 false.

(** A decimal literal [n / 10^d], correctly rounded: numerator and
    denominator are exact for the literals of the source, so the rounded
    quotient is the number the literal denotes. *)
Definition of_decimal (n : Z) (d : Z) : float64 :=
  div (of_Z n) (of_Z (10 ^ d)).


Definition is_nan (a : float64) : bool :=
  match a with
  | S754_nan => true
  | _ => false
  end.

End F64.

Abbreviation float64 := F64.float64.

(** The numeric literals of [server.js]. *)
Definition lit_200 : float64 := Eval vm_compute in F64.of_Z 200.
Definition lit_1_5 : float64 := Eval vm_compute in F64.of_decimal 15 1.
Definition lit_0_3 : float64 := Eval vm_compute in F64.of_decimal 3 1.
Definition lit_0_2 : float64 := Eval vm_compute in F64.of_decimal 2 1.
Definition lit_0_5 : float64 := Eval vm_compute in F64.of_decimal 5 1.

(** ** Values that may be [undefined] *)

(** Reading an array past its end yields [undefined]; [None] stands for it.
    In an arithmetic operation [undefined] is converted to [NaN]. *)
Definition ToNumber (v : option float64) : float64 :=
  match v with
  | Some n => n
  | None => F64.NaN
  end.

(** [a + b] where each operand is a number or [undefined]. *)
Definition plus (a b : option float64) : float64 :=
  F64.add (ToNumber a) (ToNumber b).

(** [arr[i]]. *)
Definition index {A : Type} (arr : list A) (i : nat) : option A :=
  nth_error arr i.

(** ** The pressure classifier (lines 93-124) *)

(** One entry of the [sensors] array, [{ value: Number }]. *)
Record sensor : Type := Sensor { value : float64 }.

Definition evaluatePosture (sensorData : list sensor) : string :=
  let sensorValues := map value sensorData in
  let leftSide := plus (index sensorValues 0) (index sensorValues 2) in
  let rightSide := plus (index sensorValues 1) (index sensorValues 3) in
  let difference := F64.abs (F64.sub leftSide rightSide) in
  let totalWeight :=
    fold_left (fun sum val => F64.add sum val) sensorValues F64.zero in
  let backWeight := plus (index sensorValues 0) (index sensorValues 1) in
  let frontWeight := plus (index sensorValues 2) (index sensorValues 3) in
  if F64.lt totalWeight lit_200 then "not_sitting"
  else if F64.gt frontWeight (F64.mul backWeight lit_1_5) then "lean_forwarding"
  else if F64.gt difference (F64.mul totalWeight lit_0_3) then "poor"
  else "good".

(** A reading given by four integers, as in the test suite. *)
Definition reading (a b c d : Z) : list sensor :=
  [Sensor (F64.of_Z a); Sensor (F64.of_Z b); Sensor (F64.of_Z c); Sensor (F64.of_Z d)].

(** ** The chair registry (lines 18 and 74-79) *)

(** A chair identifier as the routes hand it to the registry: a string, or
    [undefined] ([None]) when a [POST /posenet] body has no [chairId]. *)
Definition chair_id : Type := option string.

(** The comparison [Array.prototype.includes] makes, on identifiers. *)
Definition same_id (a b : chair_id) : bool :=
  match a, b with
  | Some s, Some t => String.eqb s t
  | None, None => true
  | _, _ => false
  end.

Definition includes (arr : list chair_id) (id : chair_id) : bool :=
  existsb (same_id id) arr.

Definition push {A : Type} (arr : list A) (item : A) : list A :=
  arr ++ [item].

(** The module-level array [registeredChairIds] is threaded through. *)
Definition registerChairId (id : chair_id) (registeredChairIds : list chair_id)
  : list chair_id :=
  if negb (includes registeredChairIds id)
  then push registeredChairIds id
  else registeredChairIds.

(** ** The keypoint classifier (lines 133-168) *)

Record point : Type := Point { x : float64; y : float64 }.

Record keypoint : Type :=
  Keypoint { part : string; score : float64; position : point }.

(** [keypoints.find(kp => kp.part === name)]: the first match, or
    [undefined]. *)
Definition find_part (name : string) (keypoints : list keypoint)
  : option keypoint :=
  find (fun kp => String.eqb (part kp) name) keypoints.

(** Lines 156-167: the ear check and the final [return 'good']. *)
Definition earSymmetry (leftEar rightEar : option keypoint) : string :=
  match leftEar, rightEar with
  | Some leftEar, Some rightEar =>
      if F64.gt (score leftEar) lit_0_5 && F64.gt (score rightEar) lit_0_5
      then
        let earDiff :=
          F64.abs (F64.sub (y (position leftEar)) (y (position rightEar))) in
        let earDistance :=
          F64.abs (F64.sub (x (position leftEar)) (x (position rightEar))) in
        if F64.gt earDiff (F64.mul earDistance lit_0_3) then "poor" else "good"
      else "good"
  | _, _ => "good"
  end.

Definition shoulderDiff (leftShoulder rightShoulder : keypoint) : float64 :=
  F64.abs (F64.sub (y (position leftShoulder)) (y (position rightShoulder))).

Definition shoulderDistance (leftShoulder rightShoulder : keypoint) : float64 :=
  F64.abs (F64.sub (x (position leftShoulder)) (x (position rightShoulder))).

Definition analyzePoseNetPosture (keypoints : list keypoint) : string :=
  let nose := find_part "nose" keypoints in
  let leftShoulder := find_part "leftShoulder" keypoints in
  let rightShoulder := find_part "rightShoulder" keypoints in
  let leftEar := find_part "leftEar" keypoints in
  let rightEar := find_part "rightEar" keypoints in
  match nose, leftShoulder, rightShoulder with
  | Some nose, Some leftShoulder, Some rightShoulder =>
      if F64.lt (score nose) lit_0_3
         || F64.lt (score leftShoulder) lit_0_3
         || F64.lt (score rightShoulder) lit_0_3
      then "not_sitting"
      else if F64.gt (shoulderDiff leftShoulder rightShoulder)
                     (F64.mul (shoulderDistance leftShoulder rightShoulder) lit_0_2)
      then "poor"
      else earSymmetry leftEar rightEar
  | _, _, _ => "not_sitting"
  end.

(** ** Request bodies *)

(** What a body field holding an array of [A] may hold instead: nothing at
    all ([Undefined]), or any other JSON value.  Array entries have the
    shape the Mongoose schema and the header comments of the classifiers
    give them; the length of the array is free. *)
Inductive field (A : Type) : Type :=
| Undefined
| Null
| Boolean (b : bool)
| Number (n : float64)
| Text (s : string)
| Object
| Array (items : list A).

Arguments Undefined {A}.
Arguments Null {A}.
Arguments Boolean {A} b.
Arguments Number {A} n.
Arguments Text {A} s.
Arguments Object {A}.
Arguments Array {A} items.

(** JavaScript truthiness, as [!v] tests it. *)
Definition truthy {A : Type} (v : field A) : bool :=
  match v with
  | Undefined | Null => false
  | Boolean b => b
  | Number n => negb (F64.eq n F64.zero || F64.is_nan n)
  | Text s => negb (String.eqb s "")
  | Object | Array _ => true
  end.

Definition Array_isArray {A : Type} (v : field A) : bool :=
  match v with
  | Array _ => true
  | _ => false
  end.

(** The entries of a field that passed [Array.isArray]. *)
Definition elements {A : Type} (v : field A) : list A :=
  match v with
  | Array items => items
  | _ => []
  end.

(** [v || d] on an optional string: the empty string is falsy too. *)
Definition or_else (v : option string) (d : string) : string :=
  match v with
  | Some s => if String.eqb s "" then d else s
  | None => d
  end.

(** Body of [POST /chair]: [{ id, sensors }].  The identifier is absent or
    a string, the type the header comment of [registerChairId] gives it. *)
Record chair_body : Type :=
  ChairBody { body_id : option string; body_sensors : field sensor }.

(** Body of [POST /posenet]: [{ chairId, keypoints }]. *)
Record posenet_body : Type :=
  PosenetBody { body_chairId : option string; body_keypoints : field keypoint }.

(** ** Collaborators: the store, the socket and the clock *)

(** The document [new PostureData(...)] builds from the fields it is
    given: the schema (lines 52-58) fills in the time stamp, and the array
    path [sensors] is the empty array when no array is given; [poseData],
    a plain [Object] path, stays absent. *)
Record PostureData : Type :=
  MkPostureData {
    chairId : chair_id;
    timestamp : Z;
    sensors : option (list sensor);
    poseData : option (list keypoint);
    postureStatus : string
  }.

(** What [io.emit] sends. *)
Inductive event : Type :=
| chairData (chairId : chair_id) (sensors : list sensor) (timestamp : Z)
            (postureStatus : string) (source : string)
| postureUpdate (chairId : chair_id) (postureStatus : string)
                (hasPoseData : bool) (source : string) (timestamp : Z).

(** What the outside world answers during one request: whether
    [postureRecord.save()] resolves, and the two clock readings. *)
Record world : Type :=
  World { save_resolves : bool; created_at : Z; emitted_at : Z }.

Inductive payload : Type :=
| ErrorBody (error : string)
| ResultBody (message : string) (postureStatus : string).

Record response : Type := Response { status : Z; json : payload }.

(** The state the routes act on: the registry array, the documents saved so
    far and the events emitted so far (both oldest first). *)
Record server : Type :=
  Server {
    registeredChairIds : list chair_id;
    collection : list PostureData;
    emitted : list event
  }.

(** The server at its first start, on a store that holds no document yet.
    Only the registry is created by the process (line 18): after a restart
    it is empty again while the store keeps its documents, a state
    [Server [] docs []]. *)
Definition initial : server := Server [] [] [].

(** ** The ingestion routes (lines 202-296) *)

Definition post_chair (body : chair_body) (w : world) (st : server)
  : response * server :=
  let sensorData := body_sensors body in
  let chairId := or_else (body_id body) "unknown" in
  let registry := registerChairId (Some chairId) (registeredChairIds st) in
  if negb (truthy sensorData) || negb (Array_isArray sensorData)
  then (Response 400 (ErrorBody "Invalid sensor data format"),
        Server registry (collection st) (emitted st))
  else
    let sensorData := elements sensorData in
    let postureStatus := evaluatePosture sensorData in
    let postureRecord :=
      MkPostureData (Some chairId) (created_at w) (Some sensorData) None
                    postureStatus in
    if save_resolves w
    then (Response 200 (ResultBody "Data received successfully" postureStatus),
          Server registry
                 (push (collection st) postureRecord)
                 (push (emitted st)
                       (chairData (Some chairId) sensorData (emitted_at w)
                                  postureStatus "sensors")))
    else (Response 500 (ErrorBody "Server error"),
          Server registry (collection st) (emitted st)).

Definition post_posenet (body : posenet_body) (w : world) (st : server)
  : response * server :=
  let chairId := body_chairId body in
  let keypoints := body_keypoints body in
  let registry := registerChairId chairId (registeredChairIds st) in
  if negb (truthy keypoints) || negb (Array_isArray keypoints)
  then (Response 400 (ErrorBody "Invalid keypoints data"),
        Server registry (collection st) (emitted st))
  else
    let keypoints := elements keypoints in
    let posePosture := analyzePoseNetPosture keypoints in
    let postureRecord :=
      MkPostureData chairId (created_at w) (Some []) (Some keypoints)
                    posePosture in
    if save_resolves w
    then (Response 200
                   (ResultBody "PoseNet data received successfully" posePosture),
          Server registry
                 (push (collection st) postureRecord)
                 (push (emitted st)
                       (postureUpdate chairId posePosture true "posenet"
                                      (emitted_at w))))
    else (Response 500 (ErrorBody "Server error"),
          Server registry (collection st) (emitted st)).

(** A run of the server: the requests it serves, in order. *)
Inductive request : Type :=
| PostChair (body : chair_body)
| PostPosenet (body : posenet_body).

Definition handle (rq : request) (w : world) (st : server)
  : response * server :=
  match rq with
  | PostChair body => post_chair body w st
  | PostPosenet body => post_posenet body w st
  end.

Fixpoint serve (rqs : list (request * world)) (st : server) : server :=
  match rqs with
  | [] => st
  | (rq, w) :: rest => serve rest (snd (handle rq w st))
  end.

(** ** Quantities the specification names *)

Section Readings.

(** [readings[0]] to [readings[3]]. *)
Variables r0 r1 r2 r3 : float64.

Definition readings : list sensor := [Sensor r0; Sensor r1; Sensor r2; Sensor r3].

(** The sum of the four values, accumulated from [0] as [reduce] does. *)
Definition total : float64 :=
  F64.add (F64.add (F64.add (F64.add F64.zero r0) r1) r2) r3.

Definition leftSide : float64 := F64.add r0 r2.
Definition rightSide : float64 := F64.add r1 r3.
Definition imbalance : float64 := F64.abs (F64.sub leftSide rightSide).

(** The pairing of the specification, section 4.1 step 4. *)
Definition spec_front : float64 := F64.add r0 r1.
Definition spec_back : float64 := F64.add r2 r3.

(** The pairing of [evaluatePosture], lines 104-105. *)
Definition backWeight : float64 := F64.add r0 r1.
Definition frontWeight : float64 := F64.add r2 r3.

End Readings.

(** "Absent, or present with a score below 0.3", for the first keypoint
    named [name]. *)
Definition unreliable (name : string) (keypoints : list keypoint) : bool :=
  match find_part name keypoints with
  | None => true
  | Some k => F64.lt (score k) lit_0_3
  end.

(** The confidence gate of the keypoint classifier is passed: the three
    essential parts are found as [nose], [ls] and [rs], none of them with a
    score below 0.3. *)
Definition passes_gate (keypoints : list keypoint) (nose ls rs : keypoint)
  : Prop :=
  find_part "nose" keypoints = Some nose /\
  find_part "leftShoulder" keypoints = Some ls /\
  find_part "rightShoulder" keypoints = Some rs /\
  F64.lt (score nose) lit_0_3 = false /\
  F64.lt (score ls) lit_0_3 = false /\
  F64.lt (score rs) lit_0_3 = false.

(** "Both ears are present with score above 0.5 and
    earDiff > earDistance * 0.3". *)
Definition ears_tilted (keypoints : list keypoint) : bool :=
  match find_part "leftEar" keypoints, find_part "rightEar" keypoints with
  | Some le, Some re =>
      F64.gt (score le) lit_0_5 && F64.gt (score re) lit_0_5
      && F64.gt (F64.abs (F64.sub (y (position le)) (y (position re))))
                (F64.mul (F64.abs (F64.sub (x (position le)) (x (position re))))
                         lit_0_3)
  | _, _ => false
  end.

(** A keypoint with a score in tenths and integer coordinates. *)
Definition kp (name : string) (tenths : Z) (px py : Z) : keypoint :=
  Keypoint name (F64.of_decimal tenths 1) (Point (F64.of_Z px) (F64.of_Z py)).

(** The identifier a request hands to [registerChairId]. *)
Definition registered_id (rq : request) : chair_id :=
  match rq with
  | PostChair body => Some (or_else (body_id body) "unknown")
  | PostPosenet body => body_chairId body
  end.

(** "A sequence of exactly 4 readings". *)
Definition four_readings (v : field sensor) : bool :=
  match v with
  | Array items => Nat.eqb (List.length items) 4
  | _ => false
  end.

(** The aligned keypoint set of the test suite. *)
Definition aligned : list keypoint :=
  [kp "nose" 9 0 0; kp "leftShoulder" 9 100 200; kp "rightShoulder" 9 200 200;
   kp "leftEar" 9 90 100; kp "rightEar" 9 210 100].

(** ** The route [GET /api/chairids] (lines 181-197) *)

Inductive ids_payload : Type :=
| IdsBody (ids : list string)
| IdsError (error : string).

Record ids_response : Type :=
  IdsResponse { ids_status : Z; ids_json : ids_payload }.

(** [.find({ timestamp: { $gte: since } })] on the saved documents. *)
Definition find_since (since : Z) (docs : list PostureData)
  : list PostureData :=
  filter (fun doc => (since <=? timestamp doc)%Z) docs.

(** The values of a field over some documents, each one once, in the order
    of their first occurrence; a document saved without the field
    contributes nothing.  [seen] holds the values met so far. *)
Fixpoint distinct_from (seen : list string) (values : list chair_id)
  : list string :=
  match values with
  | [] => seen
  | None :: rest => distinct_from seen rest
  | Some s :: rest =>
      if existsb (String.eqb s) seen
      then distinct_from seen rest
      else distinct_from (push seen s) rest
  end.

(** [.distinct('chairId')]. *)
Definition distinct_chairId (docs : list PostureData) : list string :=
  distinct_from [] (map chairId docs).

(** The route reads the clock ([now]) and queries the store, which answers
    ([find_resolves]) or fails; it changes nothing. *)
Definition get_chairids (now : Z) (find_resolves : bool) (st : server)
  : ids_response :=
  let oneMinuteAgo := (now - 3600 * 1000)%Z in
  if find_resolves
  then
    let activeChairIds :=
      distinct_chairId (find_since oneMinuteAgo (collection st)) in
    IdsResponse 200 (IdsBody activeChairIds)
  else IdsResponse 500 (IdsError "Errore server").

(** ** Observations on events, runs and labels *)

(** The fields of an emitted payload. *)
Definition event_chairId (e : event) : chair_id :=
  match e with
  | chairData id _ _ _ _ => id
  | postureUpdate id _ _ _ _ => id
  end.

Definition event_postureStatus (e : event) : string :=
  match e with
  | chairData _ _ _ label _ => label
  | postureUpdate _ label _ _ _ => label
  end.

Definition event_source (e : event) : string :=
  match e with
  | chairData _ _ _ _ source => source
  | postureUpdate _ _ _ source _ => source
  end.

(** The responses of a run, in order. *)
Fixpoint responses (rqs : list (request * world)) (st : server)
  : list response :=
  match rqs with
  | [] => []
  | (rq, w) :: rest =>
      fst (handle rq w st) :: responses rest (snd (handle rq w st))
  end.

(** The label a response carries, if it carries one. *)
Definition response_label (r : response) : option string :=
  match json r with
  | ResultBody _ label => Some label
  | ErrorBody _ => None
  end.

Definition pressure_labels : list string :=
  ["not_sitting"; "lean_forwarding"; "poor"; "good"].

Definition pose_labels : list string := ["not_sitting"; "poor"; "good"].

(** The accumulated total of an array of any length (line 101). *)
Definition totalWeight (sensorData : list sensor) : float64 :=
  fold_left F64.add (map value sensorData) F64.zero.

(** The five part names the keypoint classifier looks up. *)
Definition looked_up : list string :=
  ["nose"; "leftShoulder"; "rightShoulder"; "leftEar"; "rightEar"].

Definition is_looked_up (k : keypoint) : bool :=
  existsb (String.eqb (part k)) looked_up.

(** The same keypoint with the nose, if it is one, moved to [p]. *)
Definition move_nose (p : point) (k : keypoint) : keypoint :=
  if String.eqb (part k) "nose" then Keypoint (part k) (score k) p else k.

(** Left and right exchange their names. *)
Definition mirror_part (name : string) : string :=
  if String.eqb name "leftShoulder" then "rightShoulder"
  else if String.eqb name "rightShoulder" then "leftShoulder"
  else if String.eqb name "leftEar" then "rightEar"
  else if String.eqb name "rightEar" then "leftEar"
  else name.

Definition mirror (k : keypoint) : keypoint :=
  Keypoint (mirror_part (part k)) (score k) (position k).

(** ** Observations on requests and saved documents *)

(** The request carries an array where the route expects one. *)
Definition has_array (rq : request) : bool :=
  match rq with
  | PostChair body => Array_isArray (body_sensors body)
  | PostPosenet body => Array_isArray (body_keypoints body)
  end.

(** The document a request gives to [new PostureData] past the gate
    (lines 222-226 and 271-275). *)
Definition postureRecord (rq : request) (w : world) : PostureData :=
  match rq with
  | PostChair body =>
      MkPostureData (Some (or_else (body_id body) "unknown")) (created_at w)
                    (Some (elements (body_sensors body))) None
                    (evaluatePosture (elements (body_sensors body)))
  | PostPosenet body =>
      MkPostureData (body_chairId body) (created_at w) (Some [])
                    (Some (elements (body_keypoints body)))
                    (analyzePoseNetPosture (elements (body_keypoints body)))
  end.

(** A saved document is sound when it is a pressure document or a pose
    document.  A pressure document has no [poseData], its label is the
    answer of [evaluatePosture] on its [sensors] and its identifier is a
    non-empty string.  A pose document has [poseData], an empty [sensors]
    array, and its label is the answer of [analyzePoseNetPosture] on its
    keypoints. *)
Definition sound_record (doc : PostureData) : Prop :=
  match poseData doc with
  | None =>
      exists items : list sensor,
        sensors doc = Some items
        /\ postureStatus doc = evaluatePosture items
        /\ exists s, chairId doc = Some s /\ s <> ""
  | Some keypoints =>
      sensors doc = Some []
      /\ postureStatus doc = analyzePoseNetPosture keypoints
  end.

(** Identifier and label, of a document and of an event. *)
Definition record_summary (doc : PostureData) : chair_id * string :=
  (chairId doc, postureStatus doc).

Definition event_summary (e : event) : chair_id * string :=
  (event_chairId e, event_postureStatus e).

(** The number of responses with status 200. *)
Definition count_ok (rs : list response) : nat :=
  List.length (filter (fun r => (status r =? 200)%Z) rs).

(** The identifiers a [GET /api/chairids] response lists. *)
Definition listed_ids (r : ids_response) : list string :=
  match ids_json r with
  | IdsBody ids => ids
  | IdsError _ => []
  end.

(** * Properties *)

(** Closed goals about concrete requests and readings are settled by
    running the model. *)
Ltac by_evaluation := vm_compute; reflexivity.

(** ** Numbers *)

(** The literals are the binary64 numbers nearest to their decimal
    notation: 200 and 1.5 and 0.5 are exact, 0.3 and 0.2 are rounded. *)
Lemma literals_binary64 :
  lit_200 = S754_finite false 7036874417766400 (-45) /\
  lit_1_5 = S754_finite false 6755399441055744 (-52) /\
  lit_0_3 = S754_finite false 5404319552844595 (-54) /\
  lit_0_2 = S754_finite false 7205759403792794 (-55) /\
  lit_0_5 = S754_finite false 4503599627370496 (-53).
Proof. repeat split; reflexivity. Qed.


Lemma SFcompare_antisym (a b : float64) :
  SFcompare b a = option_map CompOpp (SFcompare a b).
Proof.
  destruct a as [sa | sa | | sa ma ea], b as [sb | sb | | sb mb eb];
    simpl; try reflexivity;
    try (destruct sa; reflexivity); try (destruct sb; reflexivity);
    try (destruct sa, sb; reflexivity).
  pose proof (Pos.compare_cont_antisym ma mb Eq) as Hm. simpl in Hm.
  destruct sa, sb; simpl; try reflexivity;
    rewrite (Z.compare_antisym ea eb); destruct (ea ?= eb)%Z; simpl;
    try reflexivity; rewrite <- Hm;
    try rewrite CompOpp_involutive; reflexivity.
Qed.

Lemma le_not_gt (a b : float64) : F64.le a b = true -> F64.gt a b = false.
Proof.
  unfold F64.le, F64.gt, SFleb, SFltb. rewrite (SFcompare_antisym a b).
  destruct (SFcompare a b) as [[ | | ] | ]; simpl; congruence.
Qed.

Lemma ge_not_lt (a b : float64) : F64.ge a b = true -> F64.lt a b = false.
Proof. intro H. apply (le_not_gt b a H). Qed.

(** ** The pressure classifier *)

(** On four readings every index is defined and the classifier is the
    cascade of its three tests. *)
Lemma evaluatePosture_four (r0 r1 r2 r3 : float64) :
  evaluatePosture (readings r0 r1 r2 r3) =
  if F64.lt (total r0 r1 r2 r3) lit_200 then "not_sitting"
  else if F64.gt (frontWeight r2 r3) (F64.mul (backWeight r0 r1) lit_1_5)
       then "lean_forwarding"
  else if F64.gt (imbalance r0 r1 r2 r3) (F64.mul (total r0 r1 r2 r3) lit_0_3)
       then "poor"
  else "good".
Proof. reflexivity. Qed.

(** The low-total test comes first whatever the length of the array. *)
Lemma low_total_any_length (sensorData : list sensor) :
  F64.lt (fold_left F64.add (map value sensorData) F64.zero) lit_200 = true ->
  evaluatePosture sensorData = "not_sitting".
Proof.
  intro H. unfold evaluatePosture.
  change (fun sum val : float64 => F64.add sum val) with F64.add.
  rewrite H. reflexivity.
Qed.

(** C3. Four readings whose sum is strictly below 200 classify as
    [not_sitting], however the weight is spread over the four sensors: the
    low-total test is made before every other one. *)
Theorem low_total_is_not_sitting (r0 r1 r2 r3 : float64) :
  F64.lt (total r0 r1 r2 r3) lit_200 = true ->
  evaluatePosture (readings r0 r1 r2 r3) = "not_sitting".
Proof.
  intro H. rewrite evaluatePosture_four, H. reflexivity.
Qed.

Lemma low_total_is_not_sitting_witness :
  F64.lt (total (F64.of_Z 10) (F64.of_Z 20) (F64.of_Z 30) (F64.of_Z 40)) lit_200
  = true /\
  evaluatePosture (reading 10 20 30 40) = "not_sitting".
Proof.
  split.
  - by_evaluation.
  - apply (low_total_is_not_sitting
             (F64.of_Z 10) (F64.of_Z 20) (F64.of_Z 30) (F64.of_Z 40)).
    by_evaluation.
Defined.

(** C1, as the specification states it, fails: with the front taken as
    [readings[0] + readings[1]], the reading [150, 150, 50, 50] has total
    400 and front 300 > 1.5 * 100, yet it classifies as [good]; and
    [200, 100, 50, 10], which is also unbalanced left to right, classifies
    as [poor].  Neither answer is [leaning_forward]. *)
Lemma forward_lean_spec_pairing_counterexample :
  let a := F64.of_Z 150 in let b := F64.of_Z 150 in
  let c := F64.of_Z 50 in let d := F64.of_Z 50 in
  F64.ge (total a b c d) lit_200 = true /\
  F64.gt (spec_front a b) (F64.mul (spec_back c d) lit_1_5) = true /\
  evaluatePosture (readings a b c d) = "good" /\
  evaluatePosture (readings a b c d) <> "leaning_forward" /\
  evaluatePosture (reading 200 100 50 10) = "poor".
Proof.
  vm_compute. repeat split; try reflexivity. discriminate.
Qed.

(** C1, amended. Four readings with total at least 200 and
    [readings[2] + readings[3]] strictly above
    [(readings[0] + readings[1]) * 1.5] classify as [lean_forwarding],
    whatever the left/right imbalance: the test is made before the
    imbalance test. *)
Theorem forward_lean_before_imbalance (r0 r1 r2 r3 : float64) :
  F64.ge (total r0 r1 r2 r3) lit_200 = true ->
  F64.gt (frontWeight r2 r3) (F64.mul (backWeight r0 r1) lit_1_5) = true ->
  evaluatePosture (readings r0 r1 r2 r3) = "lean_forwarding".
Proof.
  intros Htotal Hlean.
  rewrite evaluatePosture_four, (ge_not_lt _ _ Htotal), Hlean. reflexivity.
Qed.

(** The reading [10, 100, 50, 300] leans forward and is unbalanced
    (|60 - 400| > 460 * 0.3) at once. *)
Lemma forward_lean_before_imbalance_witness :
  let a := F64.of_Z 10 in let b := F64.of_Z 100 in
  let c := F64.of_Z 50 in let d := F64.of_Z 300 in
  F64.ge (total a b c d) lit_200 = true /\
  F64.gt (frontWeight c d) (F64.mul (backWeight a b) lit_1_5) = true /\
  F64.gt (imbalance a b c d) (F64.mul (total a b c d) lit_0_3) = true /\
  evaluatePosture (readings a b c d) = "lean_forwarding".
Proof.
  cbv zeta.
  split; [ by_evaluation | ].
  split; [ by_evaluation | ].
  split; [ by_evaluation | ].
  apply forward_lean_before_imbalance; by_evaluation.
Defined.

(** C4, as the specification states it, fails for the same reason: the
    reading [10, 10, 100, 100] has total 220, front 20 <= 1.5 * 200 in the
    pairing of the specification and no left/right imbalance, yet it does
    not classify as [good]. *)
Lemma imbalance_spec_pairing_counterexample :
  let a := F64.of_Z 10 in let b := F64.of_Z 10 in
  let c := F64.of_Z 100 in let d := F64.of_Z 100 in
  F64.ge (total a b c d) lit_200 = true /\
  F64.le (spec_front a b) (F64.mul (spec_back c d) lit_1_5) = true /\
  F64.gt (imbalance a b c d) (F64.mul (total a b c d) lit_0_3) = false /\
  evaluatePosture (readings a b c d) = "lean_forwarding" /\
  evaluatePosture (readings a b c d) <> "good".
Proof.
  vm_compute. repeat split; try reflexivity. discriminate.
Qed.

(** C4, amended. Four readings with total at least 200 and
    [readings[2] + readings[3]] at most [(readings[0] + readings[1]) * 1.5]
    classify as [poor] when |leftSide - rightSide| exceeds [total * 0.3] and
    as [good] otherwise; [100, 10, 100, 10] is [poor] and
    [100, 100, 100, 100] is [good]. *)
Theorem imbalance_decides_poor_or_good :
  (forall r0 r1 r2 r3 : float64,
      F64.ge (total r0 r1 r2 r3) lit_200 = true ->
      F64.le (frontWeight r2 r3) (F64.mul (backWeight r0 r1) lit_1_5) = true ->
      evaluatePosture (readings r0 r1 r2 r3) =
      if F64.gt (imbalance r0 r1 r2 r3) (F64.mul (total r0 r1 r2 r3) lit_0_3)
      then "poor" else "good") /\
  evaluatePosture (reading 100 10 100 10) = "poor" /\
  evaluatePosture (reading 100 100 100 100) = "good".
Proof.
  split; [ | split; by_evaluation ].
  intros r0 r1 r2 r3 Htotal Hlean.
  rewrite evaluatePosture_four, (ge_not_lt _ _ Htotal), (le_not_gt _ _ Hlean).
  reflexivity.
Qed.

Lemma imbalance_decides_poor_or_good_witness :
  let a := F64.of_Z 100 in let b := F64.of_Z 10 in
  F64.ge (total a b a b) lit_200 = true /\
  F64.le (frontWeight a b) (F64.mul (backWeight a b) lit_1_5) = true /\
  F64.gt (imbalance a b a b) (F64.mul (total a b a b) lit_0_3) = true /\
  evaluatePosture (readings a b a b) = "poor".
Proof.
  cbv zeta.
  split; [ by_evaluation | ].
  split; [ by_evaluation | ].
  split; [ by_evaluation | ].
  rewrite (proj1 imbalance_decides_poor_or_good
                 (F64.of_Z 100) (F64.of_Z 10) (F64.of_Z 100) (F64.of_Z 10));
    by_evaluation.
Defined.

(** ** The keypoint classifier *)

(** The lookup returns the first keypoint carrying the name. *)
Lemma find_part_first (name : string) (before : list keypoint) (k : keypoint)
      (rest : list keypoint) :
  (forall k', In k' before -> part k' <> name) ->
  part k = name ->
  find_part name (before ++ k :: rest) = Some k.
Proof.
  intros Hbefore Hk. unfold find_part.
  induction before as [ | k0 before IH]; simpl.
  - rewrite Hk, String.eqb_refl. reflexivity.
  - destruct (String.eqb_spec (part k0) name) as [Heq | _].
    + exfalso. apply (Hbefore k0); [ left; reflexivity | exact Heq ].
    + apply IH. intros k' Hin. apply Hbefore. right. exact Hin.
Qed.

(** C5. When [nose], [leftShoulder] or [rightShoulder] is absent, or the
    first keypoint so named has a score strictly below 0.3, the classifier
    answers [not_sitting]; the lookup is by part name and the first match
    wins. *)
Theorem unreliable_keypoints_not_sitting :
  (forall keypoints : list keypoint,
      unreliable "nose" keypoints
      || unreliable "leftShoulder" keypoints
      || unreliable "rightShoulder" keypoints = true ->
      analyzePoseNetPosture keypoints = "not_sitting") /\
  (forall (name : string) (before : list keypoint) (k : keypoint)
          (rest : list keypoint),
      (forall k', In k' before -> part k' <> name) ->
      part k = name ->
      find_part name (before ++ k :: rest) = Some k).
Proof.
  split; [ | exact find_part_first ].
  intros keypoints H. unfold analyzePoseNetPosture. unfold unreliable in H.
  destruct (find_part "nose" keypoints) as [n | ]; [ | reflexivity ].
  destruct (find_part "leftShoulder" keypoints) as [l | ]; [ | reflexivity ].
  destruct (find_part "rightShoulder" keypoints) as [r | ]; [ | reflexivity ].
  rewrite H. reflexivity.
Qed.

(** The first test of the suite (all three scores 0.2), and a set whose
    confident nose comes after a first, unreliable one. *)
Lemma unreliable_keypoints_not_sitting_witness :
  analyzePoseNetPosture
    [kp "nose" 2 0 0; kp "leftShoulder" 2 0 0; kp "rightShoulder" 2 0 0]
  = "not_sitting" /\
  analyzePoseNetPosture
    [kp "nose" 2 0 0; kp "nose" 9 0 0;
     kp "leftShoulder" 9 100 200; kp "rightShoulder" 9 200 200]
  = "not_sitting" /\
  find_part "nose" ([kp "leftShoulder" 9 1 1] ++ kp "nose" 2 0 0 :: [kp "nose" 9 0 0])
  = Some (kp "nose" 2 0 0).
Proof.
  split; [ | split ].
  - apply (proj1 unreliable_keypoints_not_sitting). by_evaluation.
  - apply (proj1 unreliable_keypoints_not_sitting). by_evaluation.
  - apply (proj2 unreliable_keypoints_not_sitting).
    + intros k' [Hk | []]. subst k'. vm_compute. discriminate.
    + reflexivity.
Defined.

(** C6. Past the confidence gate the classifier answers [poor] when
    shoulderDiff > shoulderDistance * 0.2, where shoulderDiff is the
    absolute difference of the y coordinates of the two shoulders and
    shoulderDistance that of their x coordinates; otherwise [poor] when
    both ears are present with a score above 0.5 and
    earDiff > earDistance * 0.3, with the same differences taken on the
    ears; otherwise [good]. *)
Theorem gate_passed_poor_or_good (keypoints : list keypoint)
        (nose ls rs : keypoint) :
  passes_gate keypoints nose ls rs ->
  analyzePoseNetPosture keypoints =
  if F64.gt (F64.abs (F64.sub (y (position ls)) (y (position rs))))
            (F64.mul (F64.abs (F64.sub (x (position ls)) (x (position rs))))
                     lit_0_2)
  then "poor"
  else if ears_tilted keypoints then "poor"
  else "good".
Proof.
  intros (Hn & Hl & Hr & Sn & Sl & Sr).
  unfold analyzePoseNetPosture. rewrite Hn, Hl, Hr, Sn, Sl, Sr. cbn [orb].
  unfold shoulderDiff, shoulderDistance.
  destruct (F64.gt (F64.abs (F64.sub (y (position ls)) (y (position rs))))
                   (F64.mul (F64.abs (F64.sub (x (position ls))
                                              (x (position rs))))
                            lit_0_2));
    [ reflexivity | ].
  unfold earSymmetry, ears_tilted.
  destruct (find_part "leftEar" keypoints) as [le | ]; [ | reflexivity ].
  destruct (find_part "rightEar" keypoints) as [re | ]; [ | reflexivity ].
  destruct (F64.gt (score le) lit_0_5), (F64.gt (score re) lit_0_5);
    cbn [andb]; reflexivity.
Qed.

(** Four sets past the gate, shoulders 100 apart.  Level shoulders and
    level ears: [good].  Level shoulders, the right ear 60 lower than the
    left one (60 > 120 * 0.3): [poor].  The right shoulder 50 lower
    (50 > 100 * 0.2), level ears: [poor].  The right shoulder 10 lower
    (10 <= 100 * 0.2), level ears: [good]. *)
Lemma gate_passed_poor_or_good_witness :
  passes_gate aligned (kp "nose" 9 0 0) (kp "leftShoulder" 9 100 200)
              (kp "rightShoulder" 9 200 200) /\
  analyzePoseNetPosture aligned = "good" /\
  analyzePoseNetPosture
    [kp "nose" 9 0 0; kp "leftShoulder" 9 100 200; kp "rightShoulder" 9 200 200;
     kp "leftEar" 9 90 100; kp "rightEar" 9 210 160] = "poor" /\
  analyzePoseNetPosture
    [kp "nose" 9 0 0; kp "leftShoulder" 9 100 200; kp "rightShoulder" 9 200 250;
     kp "leftEar" 9 90 100; kp "rightEar" 9 210 100] = "poor" /\
  analyzePoseNetPosture
    [kp "nose" 9 0 0; kp "leftShoulder" 9 100 200; kp "rightShoulder" 9 200 210;
     kp "leftEar" 9 90 100; kp "rightEar" 9 210 100] = "good".
Proof.
  split; [ repeat split; by_evaluation | ].
  split; [ | split; [ | split ] ].
  - rewrite (gate_passed_poor_or_good aligned (kp "nose" 9 0 0)
               (kp "leftShoulder" 9 100 200) (kp "rightShoulder" 9 200 200)).
    + by_evaluation.
    + repeat split; by_evaluation.
  - rewrite (gate_passed_poor_or_good _ (kp "nose" 9 0 0)
               (kp "leftShoulder" 9 100 200) (kp "rightShoulder" 9 200 200)).
    + by_evaluation.
    + repeat split; by_evaluation.
  - rewrite (gate_passed_poor_or_good _ (kp "nose" 9 0 0)
               (kp "leftShoulder" 9 100 200) (kp "rightShoulder" 9 200 250)).
    + by_evaluation.
    + repeat split; by_evaluation.
  - rewrite (gate_passed_poor_or_good _ (kp "nose" 9 0 0)
               (kp "leftShoulder" 9 100 200) (kp "rightShoulder" 9 200 210)).
    + by_evaluation.
    + repeat split; by_evaluation.
Defined.

(** *** Coinciding shoulders *)







(** ** The chair registry *)

Lemma same_id_eq (a b : chair_id) : same_id a b = true <-> a = b.
Proof.
  destruct a as [s | ], b as [t | ]; simpl; split; intro H;
    try discriminate; try reflexivity.
  - apply String.eqb_eq in H. congruence.
  - injection H as ->. apply String.eqb_refl.
Qed.

Lemma includes_In (arr : list chair_id) (id : chair_id) :
  includes arr id = true <-> In id arr.
Proof.
  unfold includes. rewrite existsb_exists. split.
  - intros (b & Hin & Hsame). apply same_id_eq in Hsame. subst b. exact Hin.
  - intro Hin. exists id. split; [ exact Hin | apply same_id_eq; reflexivity ].
Qed.

Lemma registerChairId_member (id : chair_id) (arr : list chair_id) :
  includes (registerChairId id arr) id = true.
Proof.
  unfold registerChairId. destruct (includes arr id) eqn:Hin; simpl.
  - exact Hin.
  - apply includes_In. unfold push. apply in_or_app. right. left. reflexivity.
Qed.

Lemma registerChairId_NoDup (id : chair_id) (arr : list chair_id) :
  NoDup arr -> NoDup (registerChairId id arr).
Proof.
  intro Hnd. unfold registerChairId.
  destruct (includes arr id) eqn:Hin; simpl; [ exact Hnd | ].
  unfold push. apply NoDup_app.
  - exact Hnd.
  - constructor; [ intros [] | constructor ].
  - intros a Ha [Heq | []]. subst a.
    apply includes_In in Ha. congruence.
Qed.

Lemma handle_registry (rq : request) (w : world) (st : server) :
  registeredChairIds (snd (handle rq w st)) =
  registerChairId (registered_id rq) (registeredChairIds st).
Proof.
  destruct rq as [body | body]; simpl.
  - unfold post_chair.
    destruct (negb (truthy (body_sensors body))
              || negb (Array_isArray (body_sensors body)));
      [ reflexivity | destruct (save_resolves w); reflexivity ].
  - unfold post_posenet.
    destruct (negb (truthy (body_keypoints body))
              || negb (Array_isArray (body_keypoints body)));
      [ reflexivity | destruct (save_resolves w); reflexivity ].
Qed.

Lemma serve_NoDup (rqs : list (request * world)) :
  forall st : server,
    NoDup (registeredChairIds st) ->
    NoDup (registeredChairIds (serve rqs st)).
Proof.
  induction rqs as [ | [rq w] rest IH]; intros st Hnd; simpl.
  - exact Hnd.
  - apply IH. rewrite handle_registry. apply registerChairId_NoDup, Hnd.
Qed.

(** C9. Registering an identifier that is already a member leaves the
    registry as it is (same members, same size, no error: the function is
    total); registering twice is registering once; and in every state the
    server reaches from its start, no identifier occurs twice. *)
Theorem registration_idempotent :
  (forall (id : chair_id) (arr : list chair_id),
      includes arr id = true -> registerChairId id arr = arr) /\
  (forall (id : chair_id) (arr : list chair_id),
      registerChairId id (registerChairId id arr) = registerChairId id arr) /\
  (forall rqs : list (request * world),
      NoDup (registeredChairIds (serve rqs initial))).
Proof.
  split; [ | split ].
  - intros id arr Hin. unfold registerChairId. rewrite Hin. reflexivity.
  - intros id arr. unfold registerChairId at 1.
    rewrite registerChairId_member. reflexivity.
  - intro rqs. apply serve_NoDup. constructor.
Qed.

Lemma registration_idempotent_witness :
  includes [Some "a"; None; Some "b"] (Some "b") = true /\
  registerChairId (Some "b") [Some "a"; None; Some "b"]
  = [Some "a"; None; Some "b"].
Proof.
  split.
  - reflexivity.
  - apply (proj1 registration_idempotent). reflexivity.
Defined.

(** ** The ingestion routes *)

(** The validation gate of both routes lets arrays through and nothing
    else. *)
Lemma gate_is_isArray {A : Type} (v : field A) :
  negb (truthy v) || negb (Array_isArray v) = negb (Array_isArray v).
Proof. destruct v; simpl; try reflexivity; apply orb_true_r. Qed.

(** C2, as the specification states it, fails: the body [{ id: "x" }]
    sent to a fresh server is answered 400, but the identifier ["x"] is in
    the registry afterwards. *)
Lemma invalid_sensors_still_registers_counterexample :
  let body := ChairBody (Some "x") Undefined in
  let out := post_chair body (World true 1 2) initial in
  Array_isArray (body_sensors body) = false /\
  status (fst out) = 400%Z /\
  includes (registeredChairIds initial) (Some "x") = false /\
  includes (registeredChairIds (snd out)) (Some "x") = true /\
  registeredChairIds (snd out) <> registeredChairIds initial.
Proof.
  vm_compute. repeat split; try reflexivity. discriminate.
Qed.

(** C2, amended. A [/chair] request whose [sensors] field is missing or
    not an array is answered with status 400 and the error
    "Invalid sensor data format"; no document is saved and no event is
    emitted; the chair identifier of the request ("unknown" when it has
    none) has been registered before the check. *)
Theorem invalid_sensors_rejected (body : chair_body) (w : world) (st : server) :
  Array_isArray (body_sensors body) = false ->
  fst (post_chair body w st)
  = Response 400 (ErrorBody "Invalid sensor data format") /\
  collection (snd (post_chair body w st)) = collection st /\
  emitted (snd (post_chair body w st)) = emitted st /\
  registeredChairIds (snd (post_chair body w st))
  = registerChairId (Some (or_else (body_id body) "unknown"))
                    (registeredChairIds st).
Proof.
  intro Hgate. unfold post_chair. rewrite gate_is_isArray, Hgate. simpl.
  repeat split; reflexivity.
Qed.

Lemma invalid_sensors_rejected_witness :
  Array_isArray (body_sensors (ChairBody (Some "x") (Text "12,13"))) = false /\
  fst (post_chair (ChairBody (Some "x") (Text "12,13")) (World true 1 2) initial)
  = Response 400 (ErrorBody "Invalid sensor data format").
Proof.
  split.
  - reflexivity.
  - apply (invalid_sensors_rejected
             (ChairBody (Some "x") (Text "12,13")) (World true 1 2) initial).
    reflexivity.
Defined.

(** C7, as the specification states it, fails: an array of three readings
    is not rejected; the classifier runs on it and its answer is sent back
    with status 200, saved and emitted.  The empty array passes too. *)
Lemma short_array_not_rejected_counterexample :
  let three := [Sensor (F64.of_Z 100); Sensor (F64.of_Z 100); Sensor (F64.of_Z 100)] in
  let out := post_chair (ChairBody (Some "x") (Array three)) (World true 1 2) initial in
  four_readings (Array three) = false /\
  fst out = Response 200 (ResultBody "Data received successfully"
                                     (evaluatePosture three)) /\
  evaluatePosture three = "good" /\
  map postureStatus (collection (snd out)) = ["good"] /\
  fst (post_chair (ChairBody (Some "x") (Array [])) (World true 1 2) initial)
  = Response 200 (ResultBody "Data received successfully" "not_sitting").
Proof.
  vm_compute. repeat split; reflexivity.
Qed.

(** C7, amended. A [/chair] request is rejected as invalid input when its
    [sensors] value is missing or is not an array; every array, of whatever
    length, passes the gate and is handed to the classifier, whose answer
    is sent back with status 200 when the save resolves (500 otherwise). *)
Theorem only_non_arrays_rejected (body : chair_body) (w : world) (st : server) :
  (Array_isArray (body_sensors body) = false ->
   fst (post_chair body w st)
   = Response 400 (ErrorBody "Invalid sensor data format")) /\
  (forall items : list sensor,
      body_sensors body = Array items ->
      fst (post_chair body w st)
      = if save_resolves w
        then Response 200 (ResultBody "Data received successfully"
                                      (evaluatePosture items))
        else Response 500 (ErrorBody "Server error")).
Proof.
  unfold post_chair. rewrite gate_is_isArray. split.
  - intro Hgate. rewrite Hgate. reflexivity.
  - intros items Hitems. rewrite Hitems. simpl.
    destruct (save_resolves w); reflexivity.
Qed.

Lemma only_non_arrays_rejected_witness :
  fst (post_chair (ChairBody None Null) (World true 1 2) initial)
  = Response 400 (ErrorBody "Invalid sensor data format") /\
  fst (post_chair (ChairBody None (Array (reading 100 100 100 100)))
                  (World true 1 2) initial)
  = Response 200 (ResultBody "Data received successfully" "good").
Proof.
  split.
  - apply (proj1 (only_non_arrays_rejected
                    (ChairBody None Null) (World true 1 2) initial)).
    reflexivity.
  - rewrite (proj2 (only_non_arrays_rejected
                      (ChairBody None (Array (reading 100 100 100 100)))
                      (World true 1 2) initial)
                   (reading 100 100 100 100) eq_refl).
    by_evaluation.
Defined.

(** [POST /chair] puts "unknown" in place of an absent (or empty)
    identifier before it registers and saves. *)
Lemma post_chair_defaults_identifier (v : field sensor) (w : world)
      (st : server) :
  Array_isArray v = true ->
  save_resolves w = true ->
  exists record : PostureData,
    collection (snd (post_chair (ChairBody None v) w st))
    = push (collection st) record
    /\ chairId record = Some "unknown".
Proof.
  intros Harr Hsave. unfold post_chair.
  rewrite gate_is_isArray. simpl body_sensors. rewrite Harr, Hsave. simpl.
  eexists. split; reflexivity.
Qed.

(** [POST /posenet] saves the identifier as it came. *)
Lemma post_posenet_keeps_identifier (id : option string) (v : field keypoint)
      (w : world) (st : server) :
  Array_isArray v = true ->
  save_resolves w = true ->
  exists record : PostureData,
    collection (snd (post_posenet (PosenetBody id v) w st))
    = push (collection st) record
    /\ chairId record = id.
Proof.
  intros Harr Hsave. unfold post_posenet.
  rewrite gate_is_isArray. simpl body_keypoints. rewrite Harr, Hsave. simpl.
  eexists. split; reflexivity.
Qed.

(** C8 on the code: a [/posenet] body with the aligned keypoints and no
    [chairId] is answered 200, and the document saved carries no chair
    identifier ([undefined]), not "unknown"; [undefined] is what gets
    registered.  The same observation sent to [/chair] is saved under
    "unknown". *)
Theorem posenet_absent_identifier_not_defaulted :
  let out := post_posenet (PosenetBody None (Array aligned)) (World true 1 2)
                          initial in
  status (fst out) = 200%Z /\
  map chairId (collection (snd out)) = [None] /\
  map chairId (collection (snd out)) <> [Some "unknown"] /\
  registeredChairIds (snd out) = [None] /\
  map chairId
      (collection
         (snd (post_chair (ChairBody None (Array (reading 100 100 100 100)))
                          (World true 1 2) initial)))
  = [Some "unknown"].
Proof.
  vm_compute. repeat split; try reflexivity. discriminate.
Qed.

(** * Further properties of the code *)

(** ** [NaN] in the arithmetic of the classifiers *)

Create HintDb nan.

Lemma nan_add_l (a b : float64) :
  F64.is_nan a = true -> F64.is_nan (F64.add a b) = true.
Proof. destruct a; try discriminate. reflexivity. Qed.

Lemma nan_add_r (a b : float64) :
  F64.is_nan b = true -> F64.is_nan (F64.add a b) = true.
Proof. destruct b; try discriminate. destruct a; reflexivity. Qed.

Lemma nan_sub_l (a b : float64) :
  F64.is_nan a = true -> F64.is_nan (F64.sub a b) = true.
Proof. destruct a; try discriminate. reflexivity. Qed.

Lemma nan_sub_r (a b : float64) :
  F64.is_nan b = true -> F64.is_nan (F64.sub a b) = true.
Proof. destruct b; try discriminate. destruct a; reflexivity. Qed.

Lemma nan_mul_l (a b : float64) :
  F64.is_nan a = true -> F64.is_nan (F64.mul a b) = true.
Proof. destruct a; try discriminate. reflexivity. Qed.

Lemma nan_abs (a : float64) :
  F64.is_nan a = true -> F64.is_nan (F64.abs a) = true.
Proof. destruct a; try discriminate. reflexivity. Qed.

Lemma nan_lt_l (a b : float64) : F64.is_nan a = true -> F64.lt a b = false.
Proof. destruct a; try discriminate. reflexivity. Qed.

Lemma nan_gt_l (a b : float64) : F64.is_nan a = true -> F64.gt a b = false.
Proof. destruct a; try discriminate. destruct b; reflexivity. Qed.

Lemma nan_gt_r (a b : float64) : F64.is_nan b = true -> F64.gt a b = false.
Proof. destruct b; try discriminate. reflexivity. Qed.

#[local] Hint Resolve nan_add_l nan_add_r nan_sub_l nan_sub_r nan_mul_l
  nan_abs : nan.

(** ** The pressure classifier on arrays of any length *)

(** The cascade of line 108 to 123 with the total folded. *)
Lemma evaluatePosture_total (sensorData : list sensor) :
  evaluatePosture sensorData =
  let sensorValues := map value sensorData in
  if F64.lt (totalWeight sensorData) lit_200 then "not_sitting"
  else if F64.gt (plus (index sensorValues 2) (index sensorValues 3))
                 (F64.mul (plus (index sensorValues 0) (index sensorValues 1))
                          lit_1_5)
       then "lean_forwarding"
  else if F64.gt (F64.abs (F64.sub (plus (index sensorValues 0)
                                         (index sensorValues 2))
                                   (plus (index sensorValues 1)
                                         (index sensorValues 3))))
                 (F64.mul (totalWeight sensorData) lit_0_3)
       then "poor"
  else "good".
Proof. reflexivity. Qed.

(** X1. Whatever the array, the classifier answers one of four labels:
    the three its header comment lists, or [lean_forwarding]. *)
Theorem evaluatePosture_labels (sensorData : list sensor) :
  In (evaluatePosture sensorData) pressure_labels.
Proof.
  rewrite evaluatePosture_total. cbv zeta. unfold pressure_labels.
  destruct (F64.lt _ _); [ simpl; tauto | ].
  destruct (F64.gt _ _); [ simpl; tauto | ].
  destruct (F64.gt _ _); simpl; tauto.
Qed.

(** X2. An array of any length is [not_sitting] exactly when its
    accumulated total is strictly below 200; the empty array is. *)
Theorem not_sitting_iff_low_total :
  (forall sensorData : list sensor,
      evaluatePosture sensorData = "not_sitting"
      <-> F64.lt (totalWeight sensorData) lit_200 = true) /\
  evaluatePosture [] = "not_sitting".
Proof.
  split; [ | reflexivity ].
  intro sensorData. rewrite evaluatePosture_total. cbv zeta.
  destruct (F64.lt _ _); [ split; reflexivity | ].
  destruct (F64.gt _ _); [ split; discriminate | ].
  destruct (F64.gt _ _); split; discriminate.
Qed.

(** X3. With fewer than four entries the missing readings are
    [undefined]: both side tests compare with [NaN] and fail, so the answer
    is [not_sitting] or [good] by the total alone, never [poor] nor
    [lean_forwarding]. *)
Theorem short_array_not_sitting_or_good (sensorData : list sensor) :
  (List.length sensorData < 4)%nat ->
  evaluatePosture sensorData =
  if F64.lt (totalWeight sensorData) lit_200 then "not_sitting" else "good".
Proof.
  intro Hshort. rewrite evaluatePosture_total. cbv zeta.
  assert (Hlast : index (map value sensorData) 3 = None).
  { apply nth_error_None. rewrite length_map. lia. }
  rewrite Hlast.
  destruct (F64.lt _ _); [ reflexivity | ].
  rewrite nan_gt_l by (unfold plus; auto with nan).
  rewrite nan_gt_l by (unfold plus; auto 6 with nan).
  reflexivity.
Qed.

Lemma short_array_not_sitting_or_good_witness :
  (List.length [Sensor (F64.of_Z 300); Sensor (F64.of_Z 0)] < 4)%nat /\
  evaluatePosture [Sensor (F64.of_Z 300); Sensor (F64.of_Z 0)] = "good".
Proof.
  split.
  - simpl. lia.
  - rewrite short_array_not_sitting_or_good; [ by_evaluation | simpl; lia ].
Defined.

(** X4. Four readings one of which is [NaN] classify as [good]: every
    comparison of the cascade fails. *)
Theorem nan_reading_is_good (r0 r1 r2 r3 : float64) :
  F64.is_nan r0 || F64.is_nan r1 || F64.is_nan r2 || F64.is_nan r3 = true ->
  evaluatePosture (readings r0 r1 r2 r3) = "good".
Proof.
  intro Hnan. rewrite evaluatePosture_four.
  unfold total, frontWeight, backWeight, imbalance, leftSide, rightSide.
  repeat (apply orb_true_iff in Hnan; destruct Hnan as [Hnan | Hnan]).
  all: rewrite nan_lt_l by auto 6 with nan.
  all: try (rewrite nan_gt_l by auto 6 with nan).
  all: try (rewrite nan_gt_r by auto 6 with nan).
  all: try (rewrite nan_gt_l by auto 6 with nan).
  all: reflexivity.
Qed.

Lemma nan_reading_is_good_witness :
  evaluatePosture
    (readings (F64.of_Z 500) F64.NaN (F64.of_Z 10) (F64.of_Z 10)) = "good".
Proof. apply nan_reading_is_good. reflexivity. Defined.

(** ** The keypoint classifier: what it looks at *)

Lemma find_part_cons (name : string) (k : keypoint) (rest : list keypoint) :
  find_part name (k :: rest) =
  if String.eqb (part k) name then Some k else find_part name rest.
Proof. reflexivity. Qed.

Lemma find_part_named (name : string) (keypoints : list keypoint)
      (k : keypoint) :
  find_part name keypoints = Some k -> part k = name.
Proof.
  intro Hfind. apply find_some in Hfind. apply String.eqb_eq, Hfind.
Qed.

Lemma find_part_app (name : string) (l more : list keypoint) :
  find_part name (l ++ more) =
  match find_part name l with
  | Some k => Some k
  | None => find_part name more
  end.
Proof.
  induction l as [ | k l IH]; [ reflexivity | ].
  simpl app. rewrite !find_part_cons.
  destruct (String.eqb (part k) name); [ reflexivity | exact IH ].
Qed.

Lemma find_part_present (name : string) (l : list keypoint) :
  In name (map part l) -> find_part name l <> None.
Proof.
  induction l as [ | k l IH]; intro Hin; simpl in Hin; [ tauto | ].
  destruct Hin as [Hk | Hin]; rewrite find_part_cons.
  - rewrite Hk, String.eqb_refl. discriminate.
  - destruct (String.eqb (part k) name); [ discriminate | exact (IH Hin) ].
Qed.

Lemma earSymmetry_labels (leftEar rightEar : option keypoint) :
  earSymmetry leftEar rightEar = "poor" \/ earSymmetry leftEar rightEar = "good".
Proof.
  unfold earSymmetry.
  destruct leftEar as [le | ], rightEar as [re | ]; try (right; reflexivity).
  destruct (F64.gt (score le) lit_0_5 && F64.gt (score re) lit_0_5);
    [ | right; reflexivity ].
  cbv zeta. destruct (F64.gt _ _); [ left | right ]; reflexivity.
Qed.

(** X5. Whatever the keypoints, the classifier answers [not_sitting],
    [poor] or [good], as its header comment says; [lean_forwarding] is
    never the answer to a pose. *)
Theorem analyzePoseNetPosture_labels (keypoints : list keypoint) :
  In (analyzePoseNetPosture keypoints) pose_labels /\
  analyzePoseNetPosture keypoints <> "lean_forwarding".
Proof.
  assert (Hin : In (analyzePoseNetPosture keypoints) pose_labels).
  { unfold analyzePoseNetPosture, pose_labels. cbv zeta.
    destruct (find_part "nose" keypoints) as [n | ]; [ | simpl; tauto ].
    destruct (find_part "leftShoulder" keypoints) as [l | ]; [ | simpl; tauto ].
    destruct (find_part "rightShoulder" keypoints) as [r | ]; [ | simpl; tauto ].
    destruct (_ || _ || _); [ simpl; tauto | ].
    destruct (F64.gt _ _); [ simpl; tauto | ].
    destruct (earSymmetry_labels (find_part "leftEar" keypoints)
                                 (find_part "rightEar" keypoints)) as [H | H];
      rewrite H; simpl; tauto. }
  split; [ exact Hin | ].
  intro Heq. rewrite Heq in Hin. unfold pose_labels in Hin. simpl in Hin.
  destruct Hin as [H | [H | [H | []]]]; discriminate.
Qed.

Lemma find_part_filter (name : string) (keep : keypoint -> bool)
      (l : list keypoint) :
  (forall k, part k = name -> keep k = true) ->
  find_part name (filter keep l) = find_part name l.
Proof.
  intro Hkeep. induction l as [ | k l IH]; [ reflexivity | ].
  simpl filter.
  destruct (String.eqb_spec (part k) name) as [Hk | Hk].
  - rewrite (Hkeep k Hk), !find_part_cons, Hk, String.eqb_refl. reflexivity.
  - destruct (keep k); rewrite !find_part_cons;
      destruct (String.eqb_spec (part k) name); try contradiction; exact IH.
Qed.

(** X6. Keypoints with any other part name than the five looked up
    (eyes, elbows, ...) are ignored: dropping them leaves the answer
    unchanged. *)
Theorem other_parts_ignored (keypoints : list keypoint) :
  analyzePoseNetPosture (filter is_looked_up keypoints)
  = analyzePoseNetPosture keypoints.
Proof.
  unfold analyzePoseNetPosture.
  rewrite !find_part_filter; try reflexivity;
    intros k Hk; unfold is_looked_up; rewrite Hk; reflexivity.
Qed.

(** X7. Only the first keypoint of each name counts: a keypoint appended
    to a set that already holds one of the same name changes nothing. *)
Theorem later_duplicate_ignored (keypoints : list keypoint) (k : keypoint) :
  In (part k) (map part keypoints) ->
  analyzePoseNetPosture (keypoints ++ [k]) = analyzePoseNetPosture keypoints.
Proof.
  intro Hdup.
  assert (Hsame : forall name,
             find_part name (keypoints ++ [k]) = find_part name keypoints).
  { intro name. rewrite find_part_app.
    destruct (find_part name keypoints) as [found | ] eqn:Hfound;
      [ reflexivity | ].
    rewrite find_part_cons.
    destruct (String.eqb_spec (part k) name) as [Hk | _]; [ | reflexivity ].
    exfalso. apply (find_part_present name keypoints); [ | exact Hfound ].
    rewrite <- Hk. exact Hdup. }
  unfold analyzePoseNetPosture. rewrite !Hsame. reflexivity.
Qed.

Lemma later_duplicate_ignored_witness :
  In (part (kp "nose" 1 5 5)) (map part aligned) /\
  analyzePoseNetPosture (aligned ++ [kp "nose" 1 5 5]) = "good".
Proof.
  split.
  - left. reflexivity.
  - rewrite later_duplicate_ignored; [ by_evaluation | left; reflexivity ].
Defined.

Lemma find_part_Permutation (name : string) (l l' : list keypoint) :
  Permutation l l' ->
  NoDup (map part l) ->
  find_part name l = find_part name l'.
Proof.
  induction 1 as [ | k l l' Hperm IH | k1 k2 l | l l' l'' H1 IH1 H2 IH2];
    intro Hnd.
  - reflexivity.
  - rewrite !find_part_cons. simpl in Hnd. inversion Hnd; subst.
    rewrite IH by assumption. reflexivity.
  - rewrite !find_part_cons.
    destruct (String.eqb_spec (part k1) name) as [H1 | H1];
      destruct (String.eqb_spec (part k2) name) as [H2 | H2];
      try reflexivity.
    exfalso. simpl in Hnd. inversion Hnd as [ | ? ? Hnotin _]; subst.
    apply Hnotin. left. congruence.
  - rewrite IH1 by assumption. apply IH2.
    apply (Permutation_NoDup (Permutation_map part H1) Hnd).
Qed.

(** X8. A keypoint set without two keypoints of the same name is
    classified the same in whatever order it is sent. *)
Theorem keypoint_order_irrelevant (keypoints keypoints' : list keypoint) :
  NoDup (map part keypoints) ->
  Permutation keypoints keypoints' ->
  analyzePoseNetPosture keypoints = analyzePoseNetPosture keypoints'.
Proof.
  intros Hnd Hperm. unfold analyzePoseNetPosture.
  rewrite !(find_part_Permutation _ keypoints keypoints' Hperm Hnd).
  reflexivity.
Qed.

Lemma keypoint_order_irrelevant_witness :
  analyzePoseNetPosture (rev aligned) = "good".
Proof.
  rewrite <- (keypoint_order_irrelevant aligned (rev aligned)).
  - by_evaluation.
  - simpl. repeat constructor; simpl; intuition discriminate.
  - apply Permutation_rev.
Defined.

Lemma find_part_move_other (p : point) (name : string) (l : list keypoint) :
  name <> "nose" ->
  find_part name (map (move_nose p) l) = find_part name l.
Proof.
  intro Hname. induction l as [ | k l IH]; [ reflexivity | ].
  simpl map. rewrite !find_part_cons, IH. unfold move_nose.
  destruct (String.eqb_spec (part k) "nose") as [Hk | Hk]; [ | reflexivity ].
  simpl part. destruct (String.eqb_spec (part k) name); [ | reflexivity ].
  congruence.
Qed.

Lemma find_part_move_nose (p : point) (l : list keypoint) :
  option_map score (find_part "nose" (map (move_nose p) l))
  = option_map score (find_part "nose" l).
Proof.
  induction l as [ | k l IH]; [ reflexivity | ].
  simpl map. rewrite !find_part_cons. unfold move_nose at 1 2.
  destruct (String.eqb_spec (part k) "nose") as [Hk | Hk]; simpl part.
  - rewrite Hk. reflexivity.
  - destruct (String.eqb_spec (part k) "nose"); [ contradiction | exact IH ].
Qed.

(** X9. Of the nose only the score is used: moving it anywhere leaves the
    answer unchanged. *)
Theorem nose_position_unused (p : point) (keypoints : list keypoint) :
  analyzePoseNetPosture (map (move_nose p) keypoints)
  = analyzePoseNetPosture keypoints.
Proof.
  unfold analyzePoseNetPosture.
  rewrite (find_part_move_other p "leftShoulder") by discriminate.
  rewrite (find_part_move_other p "rightShoulder") by discriminate.
  rewrite (find_part_move_other p "leftEar") by discriminate.
  rewrite (find_part_move_other p "rightEar") by discriminate.
  pose proof (find_part_move_nose p keypoints) as Hnose.
  destruct (find_part "nose" (map (move_nose p) keypoints)) as [moved | ],
           (find_part "nose" keypoints) as [n | ];
    simpl in Hnose; try discriminate; [ | reflexivity ].
  injection Hnose as ->. reflexivity.
Qed.

(** ** The keypoint classifier: left and right *)

Lemma abs_binary_round (s : bool) (m : positive) (e : Z) :
  SFabs (binary_round F64.prec F64.emax s m e)
  = SFabs (binary_round F64.prec F64.emax false m e).
Proof.
  unfold binary_round.
  destruct (shl_align m e _) as [mz ez].
  unfold binary_round_aux.
  destruct (shr_fexp _ _ _ _ _) as [mrs' e'].
  destruct (shr_fexp _ _ _ _ _) as [mrs'' e''].
  destruct (shr_m mrs''); try reflexivity.
  destruct (_ <=? _)%Z; reflexivity.
Qed.

Lemma abs_normalize_opp (z e : Z) :
  SFabs (binary_normalize F64.prec F64.emax (- z) e false)
  = SFabs (binary_normalize F64.prec F64.emax z e false).
Proof.
  destruct z as [ | m | m]; simpl; [ reflexivity | | ].
  - apply abs_binary_round.
  - symmetry. apply abs_binary_round.
Qed.

(** |a - b| = |b - a|, exactly. *)
Lemma abs_sub_comm (a b : float64) :
  F64.abs (F64.sub a b) = F64.abs (F64.sub b a).
Proof.
  destruct a as [sa | sa | | sa ma ea], b as [sb | sb | | sb mb eb];
    try reflexivity; try (destruct sa, sb; reflexivity).
  unfold F64.abs, F64.sub, SFsub. rewrite (Z.min_comm eb ea).
  rewrite <- abs_normalize_opp. f_equal. f_equal. lia.
Qed.

Lemma mirror_part_involutive (name : string) :
  mirror_part (mirror_part name) = name.
Proof.
  unfold mirror_part at 2.
  destruct (String.eqb_spec name "leftShoulder") as [-> | H1]; [ reflexivity | ].
  destruct (String.eqb_spec name "rightShoulder") as [-> | H2]; [ reflexivity | ].
  destruct (String.eqb_spec name "leftEar") as [-> | H3]; [ reflexivity | ].
  destruct (String.eqb_spec name "rightEar") as [-> | H4]; [ reflexivity | ].
  unfold mirror_part.
  destruct (String.eqb_spec name "leftShoulder"); [ contradiction | ].
  destruct (String.eqb_spec name "rightShoulder"); [ contradiction | ].
  destruct (String.eqb_spec name "leftEar"); [ contradiction | ].
  destruct (String.eqb_spec name "rightEar"); [ contradiction | reflexivity ].
Qed.

Lemma eqb_mirror_part (s name : string) :
  String.eqb (mirror_part s) name = String.eqb s (mirror_part name).
Proof.
  destruct (String.eqb_spec (mirror_part s) name) as [H1 | H1],
           (String.eqb_spec s (mirror_part name)) as [H2 | H2];
    try reflexivity; exfalso.
  - apply H2. rewrite <- H1. symmetry. apply mirror_part_involutive.
  - apply H1. rewrite H2. apply mirror_part_involutive.
Qed.

Lemma find_part_mirror (name : string) (l : list keypoint) :
  find_part name (map mirror l)
  = option_map mirror (find_part (mirror_part name) l).
Proof.
  induction l as [ | k l IH]; [ reflexivity | ].
  simpl map. rewrite !find_part_cons. simpl part. rewrite eqb_mirror_part.
  destruct (String.eqb (part k) (mirror_part name)); [ reflexivity | exact IH ].
Qed.

Lemma earSymmetry_mirror (leftEar rightEar : option keypoint) :
  earSymmetry (option_map mirror rightEar) (option_map mirror leftEar)
  = earSymmetry leftEar rightEar.
Proof.
  destruct leftEar as [le | ], rightEar as [re | ]; try reflexivity.
  unfold earSymmetry. cbn [option_map mirror score position].
  rewrite (abs_sub_comm (y (position re))), (abs_sub_comm (x (position re))).
  rewrite (andb_comm (F64.gt (score re) lit_0_5)). reflexivity.
Qed.

(** X10. The classifier does not tell left from right: when the left and
    right shoulders and the left and right ears exchange their names, the
    answer is the same. *)
Theorem left_right_exchange (keypoints : list keypoint) :
  analyzePoseNetPosture (map mirror keypoints)
  = analyzePoseNetPosture keypoints.
Proof.
  unfold analyzePoseNetPosture. rewrite !find_part_mirror.
  change (mirror_part "nose") with "nose".
  change (mirror_part "leftShoulder") with "rightShoulder".
  change (mirror_part "rightShoulder") with "leftShoulder".
  change (mirror_part "leftEar") with "rightEar".
  change (mirror_part "rightEar") with "leftEar".
  cbv zeta. rewrite earSymmetry_mirror.
  destruct (find_part "nose" keypoints) as [n | ];
    destruct (find_part "leftShoulder" keypoints) as [l | ];
    destruct (find_part "rightShoulder" keypoints) as [r | ];
    try reflexivity.
  unfold shoulderDiff, shoulderDistance.
  cbn [option_map mirror score position].
  rewrite (abs_sub_comm (y (position r))), (abs_sub_comm (x (position r))).
  destruct (F64.lt (score n) lit_0_3), (F64.lt (score l) lit_0_3),
           (F64.lt (score r) lit_0_3); reflexivity.
Qed.

(** ** The registry as a set *)

(** X11. After a registration an identifier is a member exactly when it
    was one before or is the identifier just registered. *)
Theorem includes_after_register (id other : chair_id)
        (arr : list chair_id) :
  includes (registerChairId id arr) other
  = includes arr other || same_id other id.
Proof.
  unfold registerChairId. destruct (includes arr id) eqn:Hin; simpl.
  - destruct (same_id other id) eqn:Hsame.
    + apply same_id_eq in Hsame. subst other. rewrite Hin. reflexivity.
    + rewrite orb_false_r. reflexivity.
  - unfold includes, push. rewrite existsb_app. simpl.
    rewrite orb_false_r. reflexivity.
Qed.

(** ** One request *)

Lemma or_else_nonempty (v : option string) (d : string) :
  d <> "" -> or_else v d <> "".
Proof.
  intro Hd. unfold or_else. destruct v as [s | ]; [ | exact Hd ].
  destruct (String.eqb_spec s ""); assumption.
Qed.

(** What a request does to the state: it registers its identifier, and
    when it carries an array and the save resolves it appends one document
    and one event. *)
Lemma handle_state (rq : request) (w : world) (st : server) :
  snd (handle rq w st) =
  let registry := registerChairId (registered_id rq) (registeredChairIds st) in
  if has_array rq && save_resolves w
  then Server registry
              (push (collection st) (postureRecord rq w))
              (push (emitted st)
                    (match rq with
                     | PostChair body =>
                         chairData (chairId (postureRecord rq w))
                                   (elements (body_sensors body))
                                   (emitted_at w)
                                   (postureStatus (postureRecord rq w))
                                   "sensors"
                     | PostPosenet _ =>
                         postureUpdate (chairId (postureRecord rq w))
                                       (postureStatus (postureRecord rq w))
                                       true "posenet" (emitted_at w)
                     end))
  else Server registry (collection st) (emitted st).
Proof.
  destruct rq as [body | body]; simpl handle; simpl has_array.
  - unfold post_chair. rewrite gate_is_isArray.
    destruct (Array_isArray (body_sensors body)); simpl; [ | reflexivity ].
    destruct (save_resolves w); reflexivity.
  - unfold post_posenet. rewrite gate_is_isArray.
    destruct (Array_isArray (body_keypoints body)); simpl; [ | reflexivity ].
    destruct (save_resolves w); reflexivity.
Qed.

Lemma handle_status (rq : request) (w : world) (st : server) :
  status (fst (handle rq w st)) =
  if negb (has_array rq) then 400%Z
  else if save_resolves w then 200%Z else 500%Z.
Proof.
  destruct rq as [body | body]; simpl handle; simpl has_array.
  - unfold post_chair. rewrite gate_is_isArray.
    destruct (Array_isArray (body_sensors body)); simpl; [ | reflexivity ].
    destruct (save_resolves w); reflexivity.
  - unfold post_posenet. rewrite gate_is_isArray.
    destruct (Array_isArray (body_keypoints body)); simpl; [ | reflexivity ].
    destruct (save_resolves w); reflexivity.
Qed.

(** X12. A [/posenet] request whose [keypoints] field is missing or not
    an array is answered with status 400 and the error
    "Invalid keypoints data"; nothing is saved or emitted; the
    identifier, as received, has been registered. *)
Theorem invalid_keypoints_rejected (body : posenet_body) (w : world)
        (st : server) :
  Array_isArray (body_keypoints body) = false ->
  fst (post_posenet body w st)
  = Response 400 (ErrorBody "Invalid keypoints data") /\
  collection (snd (post_posenet body w st)) = collection st /\
  emitted (snd (post_posenet body w st)) = emitted st /\
  registeredChairIds (snd (post_posenet body w st))
  = registerChairId (body_chairId body) (registeredChairIds st).
Proof.
  intro Hgate. unfold post_posenet. rewrite gate_is_isArray, Hgate. simpl.
  repeat split; reflexivity.
Qed.

Lemma invalid_keypoints_rejected_witness :
  Array_isArray (body_keypoints (PosenetBody (Some "c") (Number lit_0_5)))
  = false /\
  post_posenet (PosenetBody (Some "c") (Number lit_0_5)) (World true 1 2) initial
  = (Response 400 (ErrorBody "Invalid keypoints data"),
     Server [Some "c"] [] []).
Proof.
  split; [ reflexivity | ].
  destruct (invalid_keypoints_rejected
              (PosenetBody (Some "c") (Number lit_0_5)) (World true 1 2)
              initial eq_refl) as (Hres & Hcol & Hem & Hreg).
  rewrite (surjective_pairing (post_posenet _ _ _)), Hres.
  f_equal.
Defined.

(** X13. When the save fails, either route answers 500 "Server error",
    saves nothing and emits nothing; the identifier stays registered. *)
Theorem failed_save_is_500 (rq : request) (w : world) (st : server) :
  has_array rq = true ->
  save_resolves w = false ->
  fst (handle rq w st) = Response 500 (ErrorBody "Server error") /\
  collection (snd (handle rq w st)) = collection st /\
  emitted (snd (handle rq w st)) = emitted st /\
  includes (registeredChairIds (snd (handle rq w st))) (registered_id rq)
  = true.
Proof.
  intros Harr Hsave. rewrite handle_state, Harr, Hsave. cbv zeta. simpl.
  split; [ | repeat split; try reflexivity; apply registerChairId_member ].
  destruct rq as [body | body]; simpl in Harr |- *.
  - unfold post_chair. rewrite gate_is_isArray, Harr, Hsave. reflexivity.
  - unfold post_posenet. rewrite gate_is_isArray, Harr, Hsave. reflexivity.
Qed.

Lemma failed_save_is_500_witness :
  fst (handle (PostPosenet (PosenetBody (Some "c") (Array aligned)))
              (World false 1 2) initial)
  = Response 500 (ErrorBody "Server error").
Proof.
  apply (failed_save_is_500
           (PostPosenet (PosenetBody (Some "c") (Array aligned)))
           (World false 1 2) initial); reflexivity.
Defined.


(** X15. A request answered 200 has saved exactly one document and
    emitted exactly one event; the label in the answer, in the document
    and in the event is the same, document and event carry the same
    identifier, and the event names its source after the route. *)
Theorem ok_saves_and_emits_once (rq : request) (w : world) (st : server) :
  status (fst (handle rq w st)) = 200%Z ->
  exists (doc : PostureData) (e : event),
    collection (snd (handle rq w st)) = push (collection st) doc /\
    emitted (snd (handle rq w st)) = push (emitted st) e /\
    response_label (fst (handle rq w st)) = Some (postureStatus doc) /\
    event_summary e = record_summary doc /\
    chairId doc = registered_id rq /\
    timestamp doc = created_at w /\
    event_source e = match rq with
                     | PostChair _ => "sensors"
                     | PostPosenet _ => "posenet"
                     end.
Proof.
  intro Hok. rewrite handle_status in Hok.
  destruct (has_array rq) eqn:Harr; [ | discriminate ].
  destruct (save_resolves w) eqn:Hsave; [ | discriminate ].
  rewrite handle_state, Harr, Hsave. cbv zeta. simpl.
  eexists. eexists. split; [ reflexivity | ]. split; [ reflexivity | ].
  destruct rq as [body | body]; simpl in Harr |- *.
  - unfold post_chair. rewrite gate_is_isArray, Harr, Hsave. simpl.
    repeat split; reflexivity.
  - unfold post_posenet. rewrite gate_is_isArray, Harr, Hsave. simpl.
    repeat split; reflexivity.
Qed.

Lemma ok_saves_and_emits_once_witness :
  exists (doc : PostureData) (e : event),
    collection (snd (handle (PostChair (ChairBody (Some "c")
                                                  (Array (reading 100 10 100 10))))
                            (World true 1 2) initial)) = push [] doc /\
    postureStatus doc = "poor" /\ event_postureStatus e = "poor".
Proof.
  destruct (ok_saves_and_emits_once
              (PostChair (ChairBody (Some "c") (Array (reading 100 10 100 10))))
              (World true 1 2) initial eq_refl)
    as (doc & e & Hcol & Hem & Hlabel & Hsum & _).
  exists doc, e. split; [ exact Hcol | ].
  assert (Hdoc : postureStatus doc = "poor").
  { assert (Hpoor : response_label
                      (fst (handle (PostChair (ChairBody (Some "c")
                                                 (Array (reading 100 10 100 10))))
                                   (World true 1 2) initial)) = Some "poor")
      by by_evaluation.
    rewrite Hpoor in Hlabel. injection Hlabel as Hlabel. symmetry.
    exact Hlabel. }
  split; [ exact Hdoc | ].
  unfold event_summary, record_summary in Hsum.
  injection Hsum as _ ->. exact Hdoc.
Defined.

(** ** Runs of the server *)

Lemma registerChairId_keeps (id other : chair_id) (arr : list chair_id) :
  includes arr other = true ->
  includes (registerChairId id arr) other = true.
Proof.
  intro Hin. unfold registerChairId.
  destruct (includes arr id); simpl; [ exact Hin | ].
  apply includes_In. unfold push. apply in_or_app. left.
  apply includes_In, Hin.
Qed.

Lemma postureRecord_chairId (rq : request) (w : world) :
  chairId (postureRecord rq w) = registered_id rq.
Proof. destruct rq; reflexivity. Qed.

Lemma postureRecord_sound (rq : request) (w : world) :
  sound_record (postureRecord rq w).
Proof.
  destruct rq as [body | body]; unfold sound_record; simpl.
  - eexists. split; [ reflexivity | ]. split; [ reflexivity | ].
    eexists. split; [ reflexivity | ].
    apply or_else_nonempty. discriminate.
  - split; reflexivity.
Qed.

(** A property kept by every request holds all along a run. *)
Lemma serve_preserves (P : server -> Prop) :
  (forall rq w st, P st -> P (snd (handle rq w st))) ->
  forall rqs st, P st -> P (serve rqs st).
Proof.
  intros Hstep rqs. induction rqs as [ | [rq w] rest IH]; intros st Hst.
  - exact Hst.
  - simpl. apply IH, Hstep, Hst.
Qed.

Lemma serve_keeps_registered (other : chair_id) (rqs : list (request * world))
      (st : server) :
  includes (registeredChairIds st) other = true ->
  includes (registeredChairIds (serve rqs st)) other = true.
Proof.
  apply (serve_preserves
           (fun st => includes (registeredChairIds st) other = true)).
  intros rq w st0 Hin. rewrite handle_registry.
  apply registerChairId_keeps, Hin.
Qed.

Lemma saved_ids_registered (rqs : list (request * world)) (st : server) :
  (forall doc, In doc (collection st) ->
               includes (registeredChairIds st) (chairId doc) = true) ->
  forall doc, In doc (collection (serve rqs st)) ->
              includes (registeredChairIds (serve rqs st)) (chairId doc) = true.
Proof.
  apply (serve_preserves
           (fun st => forall doc, In doc (collection st) ->
                      includes (registeredChairIds st) (chairId doc) = true)).
  intros rq w st0 Hst doc. rewrite handle_state. cbv zeta.
  destruct (has_array rq && save_resolves w); simpl.
  - unfold push. intros [Hold | [Hnew | []]]%in_app_or.
    + apply registerChairId_keeps, Hst, Hold.
    + subst doc. rewrite postureRecord_chairId.
      apply registerChairId_member.
  - intro Hold. apply registerChairId_keeps, Hst, Hold.
Qed.

(** X16. All along a run the events emitted match the documents saved,
    one for one and in the same order, each with the identifier and the
    label of its document. *)
Theorem events_mirror_documents (rqs : list (request * world)) :
  map event_summary (emitted (serve rqs initial))
  = map record_summary (collection (serve rqs initial)).
Proof.
  apply (serve_preserves
           (fun st => map event_summary (emitted st)
                      = map record_summary (collection st)));
    [ | reflexivity ].
  intros rq w st Hst. rewrite handle_state. cbv zeta.
  destruct (has_array rq && save_resolves w); simpl; [ | exact Hst ].
  unfold push. rewrite !map_app, Hst. f_equal.
  destruct rq; reflexivity.
Qed.

(** X17. Whatever the store held before, every document a run adds to
    it is sound: a pressure document without [poseData], labelled with the
    answer of [evaluatePosture] on its own [sensors] and carrying a
    non-empty identifier, or a pose document with an empty [sensors]
    array, labelled with the answer of [analyzePoseNetPosture] on its own
    keypoints. *)
Theorem saved_documents_sound (rqs : list (request * world)) :
  forall (st : server) (doc : PostureData),
    In doc (collection (serve rqs st)) ->
    In doc (collection st) \/ sound_record doc.
Proof.
  induction rqs as [ | [rq w] rest IH]; intros st doc Hin.
  - left. exact Hin.
  - simpl serve in Hin. destruct (IH _ _ Hin) as [Hstep | Hsound];
      [ | right; exact Hsound ].
    rewrite handle_state in Hstep. cbv zeta in Hstep.
    destruct (has_array rq && save_resolves w); simpl in Hstep;
      [ | left; exact Hstep ].
    unfold push in Hstep. apply in_app_or in Hstep.
    destruct Hstep as [Hold | [Hnew | []]]; [ left; exact Hold | right ].
    subst doc. apply postureRecord_sound.
Qed.

Lemma saved_documents_sound_witness :
  sound_record
    (MkPostureData None 7 (Some []) (Some aligned)
                   (analyzePoseNetPosture aligned)).
Proof.
  destruct (saved_documents_sound
              [(PostChair (ChairBody None Null), World true 1 2);
               (PostPosenet (PosenetBody None (Array aligned)), World true 7 8)]
              initial
              (MkPostureData None 7 (Some []) (Some aligned)
                             (analyzePoseNetPosture aligned)))
    as [[] | Hsound].
  - simpl. left. reflexivity.
  - exact Hsound.
Defined.

(** X18. The number of documents a run adds is the number of its
    requests answered 200. *)
Theorem documents_count_ok_responses (rqs : list (request * world)) :
  forall st : server,
    List.length (collection (serve rqs st))
    = (List.length (collection st) + count_ok (responses rqs st))%nat.
Proof.
  induction rqs as [ | [rq w] rest IH]; intro st.
  - simpl. unfold count_ok. simpl. lia.
  - simpl serve. simpl responses. rewrite IH. unfold count_ok. simpl filter.
    rewrite handle_status, handle_state. cbv zeta.
    destruct (has_array rq); simpl; [ | lia ].
    destruct (save_resolves w); simpl; [ | lia ].
    unfold push. rewrite length_app. simpl. lia.
Qed.

(** X19. A run only appends: the registry, the documents and the events
    it started from are prefixes of those it ends with, each grown by at
    most one entry per request, documents and events by the same
    number. *)
Theorem run_appends_only (rqs : list (request * world)) :
  forall st : server,
  exists (ids : list chair_id) (docs : list PostureData) (events : list event),
    registeredChairIds (serve rqs st) = (registeredChairIds st ++ ids)%list /\
    collection (serve rqs st) = (collection st ++ docs)%list /\
    emitted (serve rqs st) = (emitted st ++ events)%list /\
    (List.length ids <= List.length rqs)%nat /\
    (List.length docs <= List.length rqs)%nat /\
    List.length events = List.length docs.
Proof.
  induction rqs as [ | [rq w] rest IH]; intro st.
  - exists [], [], []. rewrite !app_nil_r. repeat split; simpl; lia.
  - simpl serve.
    destruct (IH (snd (handle rq w st)))
      as (ids & docs & events & Hreg & Hcol & Hem & Lids & Ldocs & Lev).
    rewrite Hreg, Hcol, Hem, handle_state. cbv zeta.
    unfold registerChairId, push.
    destruct (includes (registeredChairIds st) (registered_id rq));
      destruct (has_array rq && save_resolves w); simpl negb; cbv iota;
      cbn [registeredChairIds collection emitted];
      rewrite <- ?app_assoc.
    + eexists ids, (_ :: docs), (_ :: events).
      repeat split; simpl; try reflexivity; lia.
    + exists ids, docs, events. repeat split; simpl; try reflexivity; lia.
    + eexists (_ :: ids), (_ :: docs), (_ :: events).
      repeat split; simpl; try reflexivity; lia.
    + eexists (_ :: ids), docs, events.
      repeat split; simpl; try reflexivity; lia.
Qed.

(** X20. Every request of a run, accepted or rejected, leaves its
    identifier in the registry until the end of the run. *)
Theorem served_identifier_registered (rqs : list (request * world))
        (rq : request) (w : world) :
  In (rq, w) rqs ->
  forall st : server,
    includes (registeredChairIds (serve rqs st)) (registered_id rq) = true.
Proof.
  induction rqs as [ | [rq0 w0] rest IH]; intros Hin st; [ destruct Hin | ].
  simpl serve. destruct Hin as [Hhead | Htail].
  - injection Hhead as -> ->. apply serve_keeps_registered.
    rewrite handle_registry. apply registerChairId_member.
  - apply IH, Htail.
Qed.

Lemma served_identifier_registered_witness :
  includes
    (registeredChairIds
       (serve [(PostChair (ChairBody (Some "a") Undefined), World true 1 2);
               (PostPosenet (PosenetBody (Some "b") Null), World true 3 4)]
              initial))
    (Some "a") = true.
Proof.
  apply (served_identifier_registered
           _ (PostChair (ChairBody (Some "a") Undefined)) (World true 1 2)).
  left. reflexivity.
Defined.

(** ** The list of active chairs *)

Lemma existsb_eqb_In (s : string) (l : list string) :
  existsb (String.eqb s) l = true <-> In s l.
Proof.
  rewrite existsb_exists. split.
  - intros (t & Hin & Heq). apply String.eqb_eq in Heq. subst t. exact Hin.
  - intro Hin. exists s. split; [ exact Hin | apply String.eqb_refl ].
Qed.

Lemma distinct_from_In (values : list chair_id) :
  forall (seen : list string) (s : string),
    In s (distinct_from seen values) <-> In s seen \/ In (Some s) values.
Proof.
  induction values as [ | [t | ] rest IH]; intros seen s; simpl.
  - tauto.
  - destruct (existsb (String.eqb t) seen) eqn:Hseen; rewrite IH.
    + apply existsb_eqb_In in Hseen. split.
      * tauto.
      * intros [H | [H | H]]; try tauto.
        injection H as ->. tauto.
    + unfold push. rewrite in_app_iff. simpl. split.
      * intros [[H | [H | []]] | H]; try tauto. subst t. tauto.
      * intros [H | [H | H]]; try tauto. injection H as ->. tauto.
  - rewrite IH. split; [ tauto | ].
    intros [H | [H | H]]; try tauto. discriminate.
Qed.

Lemma distinct_from_NoDup (values : list chair_id) :
  forall seen : list string,
    NoDup seen -> NoDup (distinct_from seen values).
Proof.
  induction values as [ | [t | ] rest IH]; intros seen Hnd; simpl.
  - exact Hnd.
  - destruct (existsb (String.eqb t) seen) eqn:Hseen; apply IH.
    + exact Hnd.
    + unfold push. apply NoDup_app.
      * exact Hnd.
      * constructor; [ intros [] | constructor ].
      * intros a Ha [Heq | []]. subst a.
        apply existsb_eqb_In in Ha. congruence.
  - apply IH, Hnd.
Qed.

(** An identifier is listed exactly when a document saved within the last
    hour carries it. *)
Lemma listed_iff (now : Z) (st : server) (s : string) :
  In s (listed_ids (get_chairids now true st)) <->
  exists doc : PostureData,
    In doc (collection st) /\ chairId doc = Some s /\
    (now - 3600000 <= timestamp doc)%Z.
Proof.
  unfold get_chairids, listed_ids, distinct_chairId, find_since. simpl.
  rewrite distinct_from_In, in_map_iff. split.
  - intros [[] | (doc & Hid & Hin)]. apply filter_In in Hin.
    destruct Hin as [Hin Hrecent]. apply Z.leb_le in Hrecent.
    exists doc. repeat split; assumption.
  - intros (doc & Hin & Hid & Hrecent). right. exists doc.
    split; [ exact Hid | ]. apply filter_In. split; [ exact Hin | ].
    apply Z.leb_le. exact Hrecent.
Qed.

(** X21. When the store answers, [GET /api/chairids] responds 200 with
    each identifier once, and an identifier is listed exactly when some
    saved document carrying it is stamped no more than 3 600 000 ms before
    the request; documents saved without identifier are never listed. *)
Theorem chairids_lists_recent (now : Z) (st : server) :
  ids_status (get_chairids now true st) = 200%Z /\
  NoDup (listed_ids (get_chairids now true st)) /\
  forall s : string,
    In s (listed_ids (get_chairids now true st)) <->
    exists doc : PostureData,
      In doc (collection st) /\ chairId doc = Some s /\
      (now - 3600000 <= timestamp doc)%Z.
Proof.
  split; [ reflexivity | ]. split; [ | intro s; apply listed_iff ].
  unfold get_chairids, listed_ids, distinct_chairId. simpl.
  apply distinct_from_NoDup. constructor.
Qed.

(** X22. A chair whose observation has just been accepted is listed:
    after a request answered 200 that names the identifier [s], every
    [GET /api/chairids] made within the hour that follows the stamp of the
    document lists [s]. *)
Theorem accepted_chair_is_listed (rq : request) (w : world) (st : server)
        (s : string) (now : Z) :
  status (fst (handle rq w st)) = 200%Z ->
  registered_id rq = Some s ->
  (now - 3600000 <= created_at w)%Z ->
  In s (listed_ids (get_chairids now true (snd (handle rq w st)))).
Proof.
  intros Hok Hid Hrecent. rewrite handle_status in Hok.
  destruct (has_array rq) eqn:Harr; [ | discriminate ].
  destruct (save_resolves w) eqn:Hsave; [ | discriminate ].
  apply listed_iff. exists (postureRecord rq w).
  rewrite handle_state, Harr, Hsave. cbv zeta. simpl.
  split; [ unfold push; apply in_or_app; right; left; reflexivity | ].
  split; [ rewrite postureRecord_chairId; exact Hid | ].
  destruct rq; exact Hrecent.
Qed.

Lemma accepted_chair_is_listed_witness :
  In "c"
     (listed_ids
        (get_chairids 3600010 true
           (snd (handle (PostChair (ChairBody (Some "c")
                                              (Array (reading 100 100 100 100))))
                        (World true 10 11) initial)))).
Proof.
  apply accepted_chair_is_listed; [ reflexivity | reflexivity | simpl; lia ].
Defined.

(** X23. "Every identifier in the store is registered" is kept by the
    ingestion routes: from a state where it holds (an empty store, for
    one), after any run every identifier saved, and so every identifier
    [GET /api/chairids] lists, is in the registry. *)
Theorem listed_chairs_are_registered (rqs : list (request * world))
        (st : server) :
  (forall doc : PostureData,
      In doc (collection st) ->
      includes (registeredChairIds st) (chairId doc) = true) ->
  (forall doc : PostureData,
      In doc (collection (serve rqs st)) ->
      includes (registeredChairIds (serve rqs st)) (chairId doc) = true) /\
  (forall (now : Z) (s : string),
      In s (listed_ids (get_chairids now true (serve rqs st))) ->
      includes (registeredChairIds (serve rqs st)) (Some s) = true).
Proof.
  intro Hstart. split.
  - apply saved_ids_registered, Hstart.
  - intros now s Hlisted. apply listed_iff in Hlisted.
    destruct Hlisted as (doc & Hin & Hid & _). rewrite <- Hid.
    apply saved_ids_registered; [ exact Hstart | exact Hin ].
Qed.

(** From a store holding one document of the registered chair "a", a
    request of chair "p" is served: "a" and "p" are listed and
    registered. *)
Lemma listed_chairs_are_registered_witness :
  let st := Server [Some "a"]
                   [MkPostureData (Some "a") 4 (Some []) (Some aligned) "good"]
                   [] in
  let rqs := [(PostPosenet (PosenetBody (Some "p") (Array aligned)),
               World true 5 6)] in
  (forall doc : PostureData,
      In doc (collection st) ->
      includes (registeredChairIds st) (chairId doc) = true) /\
  In "a" (listed_ids (get_chairids 100 true (serve rqs st))) /\
  includes (registeredChairIds (serve rqs st)) (Some "a") = true /\
  includes (registeredChairIds (serve rqs st)) (Some "p") = true.
Proof.
  cbv zeta.
  assert (Hstart : forall doc : PostureData,
             In doc (collection
                       (Server [Some "a"]
                               [MkPostureData (Some "a") 4 (Some [])
                                              (Some aligned) "good"] [])) ->
             includes (registeredChairIds
                         (Server [Some "a"]
                                 [MkPostureData (Some "a") 4 (Some [])
                                                (Some aligned) "good"] []))
                      (chairId doc) = true).
  { intros doc [Hdoc | []]. subst doc. reflexivity. }
  split; [ exact Hstart | ].
  split; [ apply listed_iff; eexists; split;
           [ left; reflexivity | split; [ reflexivity | simpl; lia ] ] | ].
  split.
  - apply (proj2 (listed_chairs_are_registered _ _ Hstart) 100%Z "a").
    apply listed_iff. eexists. split; [ left; reflexivity | ].
    split; [ reflexivity | simpl; lia ].
  - apply (proj2 (listed_chairs_are_registered _ _ Hstart) 100%Z "p").
    apply listed_iff. eexists. split; [ right; left; reflexivity | ].
    split; [ reflexivity | simpl; lia ].
Defined.

(** X24. With no new data the list only shrinks as time passes: what is
    listed at a later moment was listed at every earlier one. *)
Theorem listing_shrinks_with_time (now later : Z) (st : server) (s : string) :
  (now <= later)%Z ->
  In s (listed_ids (get_chairids later true st)) ->
  In s (listed_ids (get_chairids now true st)).
Proof.
  intros Hle Hlisted. apply listed_iff in Hlisted. apply listed_iff.
  destruct Hlisted as (doc & Hin & Hid & Hrecent).
  exists doc. repeat split; try assumption. lia.
Qed.

Lemma listing_shrinks_with_time_witness :
  let st := snd (handle (PostChair (ChairBody (Some "c")
                                              (Array (reading 100 100 100 100))))
                        (World true 10 11) initial) in
  (3600000 <= 3600010)%Z /\
  In "c" (listed_ids (get_chairids 3600000 true st)).
Proof.
  cbv zeta. split; [ lia | ].
  apply (listing_shrinks_with_time 3600000 3600010); [ lia | ].
  apply listed_iff. eexists. split; [ left; reflexivity | ].
  split; [ reflexivity | simpl; lia ].
Defined.

(** X25. Being registered is not being listed: a run whose requests are
    all rejected for want of an array leaves the documents and the events
    as they were, so [GET /api/chairids] answers after it what it answered
    before it, although every identifier the run named is in the
    registry. *)
Theorem rejected_run_lists_nothing (rqs : list (request * world))
        (st : server) :
  (forall rq w, In (rq, w) rqs -> has_array rq = false) ->
  collection (serve rqs st) = collection st /\
  emitted (serve rqs st) = emitted st /\
  (forall (now : Z) (find_resolves : bool),
      get_chairids now find_resolves (serve rqs st)
      = get_chairids now find_resolves st) /\
  forall rq w, In (rq, w) rqs ->
    includes (registeredChairIds (serve rqs st)) (registered_id rq) = true.
Proof.
  intro Hrejected.
  assert (Hsame : forall st0, collection (serve rqs st0) = collection st0
                              /\ emitted (serve rqs st0) = emitted st0).
  { induction rqs as [ | [rq w] rest IH]; intro st0; [ split; reflexivity | ].
    simpl serve.
    destruct (IH (fun rq' w' Hin => Hrejected rq' w' (or_intror Hin))
                 (snd (handle rq w st0))) as [Hcol Hem].
    rewrite Hcol, Hem, handle_state,
      (Hrejected rq w (or_introl eq_refl)).
    split; reflexivity. }
  destruct (Hsame st) as [Hcol Hem].
  split; [ exact Hcol | ]. split; [ exact Hem | ]. split.
  - intros now find_resolves. unfold get_chairids. rewrite Hcol. reflexivity.
  - intros rq w Hin. clear Hsame Hcol Hem Hrejected.
    revert st Hin.
    induction rqs as [ | [rq0 w0] rest IH]; intros st Hin; [ destruct Hin | ].
    simpl serve. destruct Hin as [Hhead | Htail].
    + injection Hhead as -> ->. apply serve_keeps_registered.
      rewrite handle_registry. apply registerChairId_member.
    + apply IH, Htail.
Qed.

(** Two rejected requests on a fresh server: both chairs are registered,
    none is listed. *)
Lemma rejected_run_lists_nothing_witness :
  let rqs := [(PostChair (ChairBody (Some "a") Undefined), World true 1 2);
              (PostPosenet (PosenetBody (Some "b") Object), World true 3 4)] in
  (forall rq w, In (rq, w) rqs -> has_array rq = false) /\
  get_chairids 5 true (serve rqs initial) = IdsResponse 200 (IdsBody []) /\
  registeredChairIds (serve rqs initial) = [Some "a"; Some "b"].
Proof.
  cbv zeta.
  assert (Hrejected :
            forall rq w,
              In (rq, w)
                 [(PostChair (ChairBody (Some "a") Undefined), World true 1 2);
                  (PostPosenet (PosenetBody (Some "b") Object), World true 3 4)] ->
              has_array rq = false).
  { intros rq w [H | [H | []]]; injection H as <- _; reflexivity. }
  split; [ exact Hrejected | ]. split; [ | reflexivity ].
  rewrite (proj1 (proj2 (proj2 (rejected_run_lists_nothing _ initial Hrejected)))).
  reflexivity.
Defined.
